(** * TfrtSavedModelServable: the TFRT saved-model adapter of the servable API

    A shallow embedding of
    [tensorflow_serving/servables/tensorflow/tfrt_servable.cc] and the
    properties of it that the specification states.

    Conventions of the embedding.
    - [int64_t] is [Z]; no arithmetic is done on versions.
    - [std::string] is [string]; protobuf [map<string, T>] and
      [absl::flat_hash_map<std::string, T>] are [gmap string T]; a
      [repeated string] field is a [list string].
    - A non-const method is a computation over the heap: the servable object
      [this] and the rest of the world (the loaded model behind
      [saved_model_.get()], the thread pools, whatever the caller's callback
      writes to).  The execution engine and the caller's callback act on the
      world only: they hold no reference to the servable's private members.
    - An out-parameter [T* response] is a value passed in and returned.
    - [TRACELITERAL] only emits a trace event and is left out. *)

From stdpp Require Import gmap strings list fin_maps.
From Stdlib Require Import ZArith.

Module TfrtServable.

(** ** Status values ([absl::Status], [absl::StatusOr]) *)

Inductive ErrorCode :=
  | kCancelled | kUnknown | kInvalidArgument | kDeadlineExceeded | kNotFound
  | kAlreadyExists | kPermissionDenied | kResourceExhausted
  | kFailedPrecondition | kAborted | kOutOfRange | kUnimplemented | kInternal
  | kUnavailable | kDataLoss | kUnauthenticated.

Inductive Status :=
  | OkStatus
  | ErrorStatus (code : ErrorCode) (message : string).

Definition InvalidArgumentError (message : string) : Status :=
  ErrorStatus kInvalidArgument message.

Definition ok (s : Status) : bool :=
  match s with OkStatus => true | ErrorStatus _ _ => false end.

Inductive StatusOr (A : Type) :=
  | OkValue (value : A)
  | NotOk (status : Status).
Arguments OkValue {A} value.
Arguments NotOk {A} status.

(** ** Time ([absl::Time]) *)

(** An [absl::Time] is a point on the time line or one of the two infinities. *)
Inductive Time :=
  | InfinitePast
  | TimeAt (ticks : Z)
  | InfiniteFuture.

Global Instance Time_eq_dec : EqDecision Time.
Proof. solve_decision. Defined.

(** ** Messages of the serving API *)

(** [ModelSpec] ([apis/model.proto]): [version] and [version_label] share the
    oneof [version_choice], so setting one drops the other. *)
Inductive VersionChoice :=
  | VERSION_CHOICE_NOT_SET
  | kVersion (value : Z)
  | kVersionLabel (label : string).

Record ModelSpec := {
  name : string;
  version_choice : VersionChoice;
  signature_name : string;
}.

Definition ModelSpec_default : ModelSpec :=
  {| name := ""; version_choice := VERSION_CHOICE_NOT_SET; signature_name := "" |}.

Definition set_name (m : ModelSpec) (n : string) : ModelSpec :=
  {| name := n; version_choice := version_choice m;
     signature_name := signature_name m |}.

Definition set_signature_name (m : ModelSpec) (s : string) : ModelSpec :=
  {| name := name m; version_choice := version_choice m; signature_name := s |}.

(** [m.mutable_version()->set_value(v)] *)
Definition set_version_value (m : ModelSpec) (v : Z) : ModelSpec :=
  {| name := name m; version_choice := kVersion v;
     signature_name := signature_name m |}.

(** [kDefaultServingSignatureDefKey]
    ([tensorflow/cc/saved_model/signature_constants.h]). *)
Definition kDefaultServingSignatureDefKey : string := "serving_default".

(** [kSignatureDef], the one metadata field [GetModelMetadata] serves; the
    constant is declared in [get_model_metadata_impl.h]. *)
Definition kSignatureDef : string := "signature_def".

(** ** Configuration and per-call options *)

(** [TfrtSavedModelConfig]: the fields this file reads.  The enum field is an
    open protobuf enum, held as its integer value. *)
Record TfrtSavedModelConfig := {
  predict_response_tensor_serialization_option : Z;
  validate_input_specs : bool;
  validate_input_specs_dry_run : bool;
}.

(** [internal::PredictResponseTensorSerializationOption] *)
Inductive PredictResponseTensorSerializationOption :=
  | kAsProtoField
  | kAsProtoContent.

Global Instance PredictResponseTensorSerializationOption_eq_dec :
  EqDecision PredictResponseTensorSerializationOption.
Proof. solve_decision. Defined.

(** Modelled from the spec: [Servable::RunOptions] is declared in
    [servable.h], which is not among the sources.  The data model gives it an
    optional deadline (an absolute time whose default is "no deadline",
    [absl::InfiniteFuture()]) and input-validation toggles. *)
Record RunOptions := {
  deadline : Time;
  input_validation : bool;
  input_validation_dry_run : bool;
}.

(** ** The servable and its collaborators *)

Section Servable.

(** The world outside the servable object: the loaded models, the thread
    pools and whatever the caller's response callback writes to. *)
Context {World : Type}.

(** TensorFlow's tensors and [Tensor::AsProtoField]. *)
Context {Tensor TensorProto : Type}.
Variable AsProtoField : Tensor → TensorProto.

(** [std::chrono::system_clock::time_point] and [absl::ToChronoTime]. *)
Context {ChronoTime : Type}.
Variable ToChronoTime : Time → ChronoTime.

(** [tfrt_stub::SavedModel*], and the signatures of the meta graph of the
    model it points to. *)
Context {SavedModel SignatureDef : Type}.
Variable GetMetaGraphDef_signature_def :
  SavedModel → World → gmap string SignatureDef.

(** [google::protobuf::Any] and [Any::PackFrom] on a [SignatureDefMap]. *)
Context {Any : Type}.
Variable PackFrom : gmap string SignatureDef → Any.

(** [ThreadPoolFactory*] and [tsl::thread::ThreadPoolOptions]. *)
Context {ThreadPoolFactory ThreadPoolOptions : Type}.
Variable default_ThreadPoolOptions : ThreadPoolOptions.
Variable GetThreadPools_get : ThreadPoolFactory → ThreadPoolOptions.

(** The request and response messages this file only passes on. *)
Context {ClassificationRequest ClassificationResponse : Type}.
Context {RegressionRequest RegressionResponse : Type}.
Context {MultiInferenceRequest MultiInferenceResponse : Type}.

Record PredictRequest := {
  request_model_spec : ModelSpec;
  request_inputs : gmap string TensorProto;
  request_output_filter : list string;
}.

Record PredictResponse := {
  response_model_spec : option ModelSpec;
  response_outputs : gmap string TensorProto;
}.

Definition PredictResponse_default : PredictResponse :=
  {| response_model_spec := None; response_outputs := ∅ |}.

Record GetModelMetadataRequest := {
  metadata_request_model_spec : ModelSpec;
  metadata_field : list string;
}.

Record GetModelMetadataResponse := {
  metadata_response_model_spec : option ModelSpec;
  metadata : gmap string Any;
}.

(** [tfrt_stub::SavedModel::RunOptions]: the fields this file writes.  A
    default-constructed value has no deadline, no callback and both
    validation flags off. *)
Record TfrtRunOptions := {
  tfrt_deadline : option ChronoTime;
  tfrt_validate_input_specs : bool;
  tfrt_validate_input_specs_dry_run : bool;
  streamed_output_callback : option (gmap string Tensor → World → World);
}.

Definition TfrtRunOptions_default : TfrtRunOptions :=
  {| tfrt_deadline := None;
     tfrt_validate_input_specs := false;
     tfrt_validate_input_specs_dry_run := false;
     streamed_output_callback := None |}.

(** The execution engine: [RunClassify], [RunRegress], [RunMultiInference]
    and [internal::RunPredict].  Each may read and change the world and
    fills the response it is given. *)
Variable RunClassify :
  TfrtRunOptions → Z → SavedModel → ClassificationRequest →
  ClassificationResponse → World → (Status * ClassificationResponse) * World.
Variable RunRegress :
  TfrtRunOptions → Z → SavedModel → RegressionRequest →
  RegressionResponse → World → (Status * RegressionResponse) * World.
Variable RunMultiInference :
  TfrtRunOptions → Z → SavedModel → MultiInferenceRequest →
  MultiInferenceResponse → World → (Status * MultiInferenceResponse) * World.
Variable RunPredict :
  TfrtRunOptions → Z → PredictResponseTensorSerializationOption →
  SavedModel → PredictRequest → PredictResponse → ThreadPoolOptions →
  World → (Status * PredictResponse) * World.

(** The data members of [TfrtSavedModelServable] ([name_] and [version_]
    are those of its base class [Servable]).  [saved_model_] is the pointer
    the [unique_ptr] owns; [thread_pool_factory_] may be null. *)
Record TfrtSavedModelServable := {
  name_ : string;
  version_ : Z;
  saved_model_ : SavedModel;
  config_ : TfrtSavedModelConfig;
  thread_pool_factory_ : option ThreadPoolFactory;
  predict_response_tensor_serialization_option_ :
    PredictResponseTensorSerializationOption;
}.

(** *** Methods as heap computations *)

Record Heap := {
  this : TfrtSavedModelServable;
  world : World;
}.

Definition Method (A : Type) : Type := Heap → A * Heap.

Global Instance Method_ret : MRet Method := λ A a h, (a, h).

Global Instance Method_bind : MBind Method :=
  λ A B k m h, let '(a, h') := m h in k a h'.

(** Read the object the method runs on. *)
Definition self : Method TfrtSavedModelServable := λ h, (this h, h).

(** Call into a collaborator, which sees the world and not the object. *)
Definition extern {A} (f : World → A * World) : Method A :=
  λ h, let '(a, w) := f (world h) in (a, {| this := this h; world := w |}).

(** Read the world without changing it. *)
Definition inspect {A} (f : World → A) : Method A := λ h, (f (world h), h).

(** *** The constructor *)

Section Constructor.

(** The enumerators of
    [TfrtSavedModelConfig::PredictResponseTensorSerializationOption]
    that the constructor's [switch] names.  Their values come from the
    generated protobuf header. *)
Variables AS_PROTO_FIELD AS_PROTO_CONTENT : Z.

Definition serialization_option_of (option_ : Z) :
    PredictResponseTensorSerializationOption :=
  if decide (option_ = AS_PROTO_FIELD) then kAsProtoField
  else if decide (option_ = AS_PROTO_CONTENT) then kAsProtoContent
  else kAsProtoField.

Definition new_TfrtSavedModelServable (name : string) (version : Z)
    (config : TfrtSavedModelConfig) (saved_model : SavedModel)
    (thread_pool_factory : option ThreadPoolFactory) :
    TfrtSavedModelServable :=
  {| name_ := name;
     version_ := version;
     saved_model_ := saved_model;
     config_ := config;
     thread_pool_factory_ := thread_pool_factory;
     predict_response_tensor_serialization_option_ :=
       serialization_option_of
         (predict_response_tensor_serialization_option config) |}.

End Constructor.

(** *** GetTFRTSavedModelRunOptions (a const method) *)

Definition GetTFRTSavedModelRunOptions (servable : TfrtSavedModelServable)
    (run_options : RunOptions) : TfrtRunOptions :=
  let options := TfrtRunOptions_default in
  let options :=
    if decide (deadline run_options ≠ InfiniteFuture) then
      {| tfrt_deadline := Some (ToChronoTime (deadline run_options));
         tfrt_validate_input_specs := tfrt_validate_input_specs options;
         tfrt_validate_input_specs_dry_run :=
           tfrt_validate_input_specs_dry_run options;
         streamed_output_callback := streamed_output_callback options |}
    else options in
  {| tfrt_deadline := tfrt_deadline options;
     tfrt_validate_input_specs := validate_input_specs (config_ servable);
     tfrt_validate_input_specs_dry_run :=
       validate_input_specs_dry_run (config_ servable);
     streamed_output_callback := streamed_output_callback options |}.

(** [thread_pool_factory_ == nullptr ? ThreadPoolOptions()
                                     : thread_pool_factory_->GetThreadPools().get()] *)
Definition thread_pool_options (servable : TfrtSavedModelServable) :
    ThreadPoolOptions :=
  match thread_pool_factory_ servable with
  | None => default_ThreadPoolOptions
  | Some factory => GetThreadPools_get factory
  end.

(** *** Classify, Regress, Predict, MultiInference *)

Definition Classify (run_options : RunOptions)
    (request : ClassificationRequest) (response : ClassificationResponse) :
    Method (Status * ClassificationResponse) :=
  servable ← self;
  extern (RunClassify (GetTFRTSavedModelRunOptions servable run_options)
            (version_ servable) (saved_model_ servable) request response).

Definition Regress (run_options : RunOptions)
    (request : RegressionRequest) (response : RegressionResponse) :
    Method (Status * RegressionResponse) :=
  servable ← self;
  extern (RunRegress (GetTFRTSavedModelRunOptions servable run_options)
            (version_ servable) (saved_model_ servable) request response).

Definition Predict (run_options : RunOptions)
    (request : PredictRequest) (response : PredictResponse) :
    Method (Status * PredictResponse) :=
  servable ← self;
  extern (RunPredict (GetTFRTSavedModelRunOptions servable run_options)
            (version_ servable)
            (predict_response_tensor_serialization_option_ servable)
            (saved_model_ servable) request response
            (thread_pool_options servable)).

Definition MultiInference (run_options : RunOptions)
    (request : MultiInferenceRequest) (response : MultiInferenceResponse) :
    Method (Status * MultiInferenceResponse) :=
  servable ← self;
  extern (RunMultiInference
            (GetTFRTSavedModelRunOptions servable run_options)
            (version_ servable) (saved_model_ servable) request response).

(** *** PredictStreamed *)

(** The closure that [PredictStreamed] hands to
    [SingleRequestPredictStreamedContext]: what the lambda captures besides
    [this], namely a copy of [run_options] and the moved
    [response_callback].  The captured [this] is the servable of the heap
    the closure later runs in. *)
Record PredictStreamedContext := {
  captured_run_options : RunOptions;
  captured_response_callback : StatusOr PredictResponse → World → World;
}.

(** The inner lambda installed as [streamed_output_callback]. *)
Definition streamed_output_lambda (model_spec : ModelSpec)
    (response_callback : StatusOr PredictResponse → World → World)
    (outputs : gmap string Tensor) : World → World :=
  let response :=
    {| response_model_spec := Some model_spec;
       response_outputs := response_outputs PredictResponse_default |} in
  let response :=
    map_fold
      (λ output_key output_tensor response,
         {| response_model_spec := response_model_spec response;
            response_outputs :=
              <[output_key := AsProtoField output_tensor]>
                (response_outputs response) |})
      response outputs in
  response_callback (OkValue response).

(** The local [model_spec] of the outer lambda. *)
Definition streamed_model_spec (servable : TfrtSavedModelServable)
    (request : PredictRequest) : ModelSpec :=
  let signature_name :=
    if decide (signature_name (request_model_spec request) = "")
    then kDefaultServingSignatureDefKey
    else signature_name (request_model_spec request) in
  let model_spec := request_model_spec request in
  let model_spec := set_signature_name model_spec signature_name in
  set_version_value model_spec (version_ servable).

(** The local [tfrt_run_options] of the outer lambda once the callback is
    installed. *)
Definition streamed_run_options (servable : TfrtSavedModelServable)
    (context : PredictStreamedContext) (request : PredictRequest) :
    TfrtRunOptions :=
  let tfrt_run_options :=
    GetTFRTSavedModelRunOptions servable (captured_run_options context) in
  let model_spec := streamed_model_spec servable request in
  {| tfrt_deadline := tfrt_deadline tfrt_run_options;
     tfrt_validate_input_specs := tfrt_validate_input_specs tfrt_run_options;
     tfrt_validate_input_specs_dry_run :=
       tfrt_validate_input_specs_dry_run tfrt_run_options;
     streamed_output_callback :=
       Some (streamed_output_lambda model_spec
               (captured_response_callback context)) |}.

(** The body of the outer lambda, which the context runs on the request it
    is given. *)
Definition PredictStreamed_lambda (context : PredictStreamedContext)
    (request : PredictRequest) : Method Status :=
  servable ← self;
  let tfrt_run_options := streamed_run_options servable context request in
  let response := PredictResponse_default in
  result ← extern (RunPredict tfrt_run_options (version_ servable)
                     (predict_response_tensor_serialization_option_ servable)
                     (saved_model_ servable) request response
                     (thread_pool_options servable));
  mret (fst result).

Definition PredictStreamed (run_options : RunOptions)
    (response_callback : StatusOr PredictResponse → World → World) :
    Method (StatusOr PredictStreamedContext) :=
  mret (OkValue {| captured_run_options := run_options;
                   captured_response_callback := response_callback |}).

(** *** GetModelMetadata *)

Fixpoint ValidateGetModelMetadataRequest_fields (fields : list string) :
    Status :=
  match fields with
  | [] => OkStatus
  | metadata_field :: fields =>
      if decide (metadata_field ≠ kSignatureDef) then
        InvalidArgumentError
          ("Metadata field " +:+ metadata_field +:+ " is not supported")
      else ValidateGetModelMetadataRequest_fields fields
  end.

Definition ValidateGetModelMetadataRequest
    (request : GetModelMetadataRequest) : Status :=
  ValidateGetModelMetadataRequest_fields (metadata_field request).

(** [response->mutable_model_spec()] *)
Definition mutable_model_spec (response : GetModelMetadataResponse) :
    ModelSpec :=
  default ModelSpec_default (metadata_response_model_spec response).

(** The body of the loop for a field equal to [kSignatureDef]. *)
Definition put_signature_def (servable : TfrtSavedModelServable)
    (signature_def : gmap string SignatureDef)
    (response : GetModelMetadataResponse) : GetModelMetadataResponse :=
  let signature_def_map :=
    map_fold (λ first second signature_def_map,
                <[first := second]> signature_def_map)
      ∅ signature_def in
  let response_model_spec := mutable_model_spec response in
  let response_model_spec := set_name response_model_spec (name_ servable) in
  let response_model_spec :=
    set_version_value response_model_spec (version_ servable) in
  {| metadata_response_model_spec := Some response_model_spec;
     metadata := <[kSignatureDef := PackFrom signature_def_map]>
                   (metadata response) |}.

Fixpoint GetModelMetadata_fields (fields : list string)
    (response : GetModelMetadataResponse) :
    Method (Status * GetModelMetadataResponse) :=
  match fields with
  | [] => mret (OkStatus, response)
  | metadata_field :: fields =>
      if decide (metadata_field = kSignatureDef) then
        servable ← self;
        signature_def ←
          inspect (GetMetaGraphDef_signature_def (saved_model_ servable));
        GetModelMetadata_fields fields
          (put_signature_def servable signature_def response)
      else
        mret (InvalidArgumentError
                ("MetadataField " +:+ metadata_field +:+ " is not supported"),
              response)
  end.

Definition GetModelMetadata (request : GetModelMetadataRequest)
    (response : GetModelMetadataResponse) :
    Method (Status * GetModelMetadataResponse) :=
  let status := ValidateGetModelMetadataRequest request in
  if ok status then GetModelMetadata_fields (metadata_field request) response
  else mret (status, response).

(** *** CreateTfrtSavedModelServable *)

(** [tfrt_stub::SavedModel::Options] and
    [tfrt_stub::SavedModelImpl::LoadSavedModel]: the loader takes the
    options, the directory and the tags as a [std::unordered_set], and
    answers with a model or a status. *)
Context {SavedModelOptions : Type}.
Variable LoadSavedModel :
  SavedModelOptions → string → gset string → World →
  StatusOr SavedModel * World.

(** A default-constructed [TfrtSavedModelConfig]: every field of the message
    has its protobuf default, zero for the enum and false for a flag. *)
Definition TfrtSavedModelConfig_default : TfrtSavedModelConfig :=
  {| predict_response_tensor_serialization_option := 0;
     validate_input_specs := false;
     validate_input_specs_dry_run := false |}.

(** The free function [CreateTfrtSavedModelServable]: [TF_ASSIGN_OR_RETURN]
    hands a failed load back to the caller; a loaded model becomes a servable
    with a default configuration and no thread pool factory.  The copy of
    [tags] into a [std::unordered_set] keeps the same set of strings. *)
Definition CreateTfrtSavedModelServable
    (AS_PROTO_FIELD AS_PROTO_CONTENT : Z) (options : SavedModelOptions)
    (name : string) (version : Z) (saved_model_dir : string)
    (tags : gset string) (w : World) :
    StatusOr TfrtSavedModelServable * World :=
  let loaded :=
    LoadSavedModel options saved_model_dir
      (list_to_set (elements tags)) w in
  match loaded.1 with
  | NotOk status => (NotOk status, loaded.2)
  | OkValue saved_model =>
      let config := TfrtSavedModelConfig_default in
      (OkValue
         (new_TfrtSavedModelServable AS_PROTO_FIELD AS_PROTO_CONTENT
            name version config saved_model None),
       loaded.2)
  end.

(** ** Properties of the adapter *)

(** Projections of a method's result. *)
Definition result_of {A} (r : A * Heap) : A := fst r.
Definition heap_of {A} (r : A * Heap) : Heap := snd r.

(** *** The streaming callback *)

(** The loop of the inner lambda fills the response with the image of the
    engine's outputs under [AsProtoField], whatever order it visits them in. *)
Lemma streamed_output_lambda_response model_spec response_callback outputs :
  streamed_output_lambda model_spec response_callback outputs =
  response_callback
    (OkValue {| response_model_spec := Some model_spec;
                response_outputs := AsProtoField <$> outputs |}).
Proof.
  unfold streamed_output_lambda. f_equal. f_equal. simpl.
  apply (map_fold_weak_ind
           (λ (r : PredictResponse) (m : gmap string Tensor),
              r = {| response_model_spec := Some model_spec;
                     response_outputs := AsProtoField <$> m |})).
  - by rewrite fmap_empty.
  - intros key tensor m r _ ->. simpl. by rewrite fmap_insert.
Qed.

Lemma streamed_run_options_callback servable context request :
  streamed_output_callback (streamed_run_options servable context request) =
  Some (streamed_output_lambda (streamed_model_spec servable request)
          (captured_response_callback context)).
Proof. reflexivity. Qed.

Lemma PredictStreamed_lambda_unfold context request h :
  PredictStreamed_lambda context request h =
  let r := RunPredict (streamed_run_options (this h) context request)
             (version_ (this h))
             (predict_response_tensor_serialization_option_ (this h))
             (saved_model_ (this h)) request PredictResponse_default
             (thread_pool_options (this h)) (world h) in
  (fst (fst r), {| this := this h; world := snd r |}).
Proof.
  unfold PredictStreamed_lambda, self, extern, mbind, Method_bind, mret,
    Method_ret.
  simpl. by destruct (RunPredict _ _ _ _ _ _ _ _) as [[status response] w].
Qed.

(** C1: in the streaming predict path every output tensor the callback
    delivers is serialized with [AsProtoField], whatever serialization option
    the servable was configured with: the delivered response does not depend
    on [predict_response_tensor_serialization_option_], which only reaches
    [RunPredict] for the response that is thrown away. *)
Theorem streamed_outputs_always_AsProtoField :
  ∀ name version saved_model config factory option_ context request,
    let servable :=
      {| name_ := name; version_ := version; saved_model_ := saved_model;
         config_ := config; thread_pool_factory_ := factory;
         predict_response_tensor_serialization_option_ := option_ |} in
    (∃ callback,
       streamed_output_callback (streamed_run_options servable context request)
         = Some callback ∧
       ∀ outputs w,
         callback outputs w =
         captured_response_callback context
           (OkValue
              {| response_model_spec :=
                   Some (set_version_value
                           (set_signature_name (request_model_spec request)
                              (if decide (signature_name
                                            (request_model_spec request) = "")
                               then kDefaultServingSignatureDefKey
                               else signature_name
                                      (request_model_spec request)))
                           version);
                 response_outputs := AsProtoField <$> outputs |}) w) ∧
    (∀ w,
       result_of (PredictStreamed_lambda context request
                    {| this := servable; world := w |}) =
       fst (fst (RunPredict (streamed_run_options servable context request)
                   version option_ saved_model request PredictResponse_default
                   (thread_pool_options servable) w))).
Proof.
  intros name version saved_model config factory option_ context request
    servable.
  split.
  - eexists. split; [apply streamed_run_options_callback|].
    intros outputs w. by rewrite streamed_output_lambda_response.
  - intros w. by rewrite PredictStreamed_lambda_unfold.
Qed.

(** C5: the response the callback receives for a streamed output map carries
    the request's model spec with the version replaced by the servable's
    version and the signature name replaced by the request's, or by the
    default serving signature key when the request's is empty; its outputs
    hold exactly one entry, the serialized tensor, per key of the output map. *)
Theorem streamed_response_model_spec_and_outputs :
  ∀ servable run_options request outputs,
    ∃ response,
      (∀ response_callback,
         ∃ callback,
           streamed_output_callback
             (streamed_run_options servable
                {| captured_run_options := run_options;
                   captured_response_callback := response_callback |}
                request) = Some callback ∧
           ∀ w, callback outputs w = response_callback (OkValue response) w) ∧
      response_model_spec response =
        Some {| name := name (request_model_spec request);
                version_choice := kVersion (version_ servable);
                signature_name :=
                  if decide (signature_name (request_model_spec request) = "")
                  then kDefaultServingSignatureDefKey
                  else signature_name (request_model_spec request) |} ∧
      dom (response_outputs response) = dom outputs ∧
      (∀ key, response_outputs response !! key =
                AsProtoField <$> outputs !! key).
Proof.
  intros servable run_options request outputs.
  exists {| response_model_spec := Some (streamed_model_spec servable request);
            response_outputs := AsProtoField <$> outputs |}.
  repeat split.
  - intros response_callback. eexists.
    split; [apply streamed_run_options_callback|].
    intros w. by rewrite streamed_output_lambda_response.
  - simpl. by rewrite dom_fmap_L.
  - intros key. simpl. by rewrite lookup_fmap.
Qed.

(** *** The engine's status is the adapter's status *)

Lemma Classify_unfold run_options request response h :
  Classify run_options request response h =
  let r := RunClassify (GetTFRTSavedModelRunOptions (this h) run_options)
             (version_ (this h)) (saved_model_ (this h)) request response
             (world h) in
  (fst r, {| this := this h; world := snd r |}).
Proof.
  unfold Classify, self, extern, mbind, Method_bind. simpl.
  by destruct (RunClassify _ _ _ _ _ _) as [result w].
Qed.

Lemma Regress_unfold run_options request response h :
  Regress run_options request response h =
  let r := RunRegress (GetTFRTSavedModelRunOptions (this h) run_options)
             (version_ (this h)) (saved_model_ (this h)) request response
             (world h) in
  (fst r, {| this := this h; world := snd r |}).
Proof.
  unfold Regress, self, extern, mbind, Method_bind. simpl.
  by destruct (RunRegress _ _ _ _ _ _) as [result w].
Qed.

Lemma Predict_unfold run_options request response h :
  Predict run_options request response h =
  let r := RunPredict (GetTFRTSavedModelRunOptions (this h) run_options)
             (version_ (this h))
             (predict_response_tensor_serialization_option_ (this h))
             (saved_model_ (this h)) request response
             (thread_pool_options (this h)) (world h) in
  (fst r, {| this := this h; world := snd r |}).
Proof.
  unfold Predict, self, extern, mbind, Method_bind. simpl.
  by destruct (RunPredict _ _ _ _ _ _ _ _) as [result w].
Qed.

Lemma MultiInference_unfold run_options request response h :
  MultiInference run_options request response h =
  let r := RunMultiInference
             (GetTFRTSavedModelRunOptions (this h) run_options)
             (version_ (this h)) (saved_model_ (this h)) request response
             (world h) in
  (fst r, {| this := this h; world := snd r |}).
Proof.
  unfold MultiInference, self, extern, mbind, Method_bind. simpl.
  by destruct (RunMultiInference _ _ _ _ _ _) as [result w].
Qed.

(** C2: the status (and the response) that [Classify], [Predict] and
    [MultiInference] return is the one the engine call returned, for every
    run options, request and state: nothing is wrapped, remapped or
    reinterpreted. *)
Theorem engine_status_returned_verbatim :
  ∀ run_options h,
    (∀ request response,
       result_of (Classify run_options request response h) =
       fst (RunClassify (GetTFRTSavedModelRunOptions (this h) run_options)
              (version_ (this h)) (saved_model_ (this h)) request response
              (world h))) ∧
    (∀ request response,
       result_of (Predict run_options request response h) =
       fst (RunPredict (GetTFRTSavedModelRunOptions (this h) run_options)
              (version_ (this h))
              (predict_response_tensor_serialization_option_ (this h))
              (saved_model_ (this h)) request response
              (thread_pool_options (this h)) (world h))) ∧
    (∀ request response,
       result_of (MultiInference run_options request response h) =
       fst (RunMultiInference
              (GetTFRTSavedModelRunOptions (this h) run_options)
              (version_ (this h)) (saved_model_ (this h)) request response
              (world h))).
Proof.
  intros run_options h. repeat split; intros request response.
  - by rewrite Classify_unfold.
  - by rewrite Predict_unfold.
  - by rewrite MultiInference_unfold.
Qed.

(** *** Run options of the engine *)

(** C3: the engine's run options carry a deadline exactly when the caller's
    deadline is not [InfiniteFuture]; the deadline is then the caller's,
    converted by [ToChronoTime]; the two validation flags are the servable's
    configuration, whatever the per-call options say. *)
Theorem GetTFRTSavedModelRunOptions_deadline_and_validation :
  ∀ servable run_options,
    let options := GetTFRTSavedModelRunOptions servable run_options in
    (is_Some (tfrt_deadline options) ↔ deadline run_options ≠ InfiniteFuture) ∧
    tfrt_deadline options =
      (if decide (deadline run_options = InfiniteFuture) then None
       else Some (ToChronoTime (deadline run_options))) ∧
    tfrt_validate_input_specs options =
      validate_input_specs (config_ servable) ∧
    tfrt_validate_input_specs_dry_run options =
      validate_input_specs_dry_run (config_ servable) ∧
    (∀ other_options,
       tfrt_validate_input_specs
         (GetTFRTSavedModelRunOptions servable other_options) =
         tfrt_validate_input_specs options ∧
       tfrt_validate_input_specs_dry_run
         (GetTFRTSavedModelRunOptions servable other_options) =
         tfrt_validate_input_specs_dry_run options).
Proof.
  intros servable run_options options. subst options.
  unfold GetTFRTSavedModelRunOptions.
  destruct (decide (deadline run_options ≠ InfiniteFuture)) as [Hset|Hunset];
    simpl.
  - destruct (decide (deadline run_options = InfiniteFuture)); [done|].
    repeat split; eauto.
  - destruct (decide (deadline run_options = InfiniteFuture)) as [Heq|Hne];
      [|by destruct Hunset].
    repeat split; try done; by intros [deadline' Hsome].
Qed.

(** *** The constructor's serialization option *)

(** C6: provided the two enumerators are different values, the constructed
    servable serializes as proto content exactly when the configuration says
    [AS_PROTO_CONTENT]; for [AS_PROTO_FIELD] and for any other value it
    serializes as proto field. *)
Theorem constructed_serialization_option :
  ∀ AS_PROTO_FIELD AS_PROTO_CONTENT : Z,
    AS_PROTO_FIELD ≠ AS_PROTO_CONTENT →
    ∀ name version config saved_model factory,
      let servable :=
        new_TfrtSavedModelServable AS_PROTO_FIELD AS_PROTO_CONTENT
          name version config saved_model factory in
      (predict_response_tensor_serialization_option_ servable = kAsProtoContent
       ↔ predict_response_tensor_serialization_option config
           = AS_PROTO_CONTENT) ∧
      (predict_response_tensor_serialization_option config ≠ AS_PROTO_CONTENT →
       predict_response_tensor_serialization_option_ servable = kAsProtoField).
Proof.
  intros F C Hdistinct name version config saved_model factory servable.
  subst servable. simpl. unfold serialization_option_of.
  destruct (decide (predict_response_tensor_serialization_option config = F))
    as [HF|HF];
    destruct (decide (predict_response_tensor_serialization_option config = C))
    as [HC|HC]; split; try done; try congruence.
Qed.

(** *** GetModelMetadata *)

Lemma Validate_fields_ok fields :
  ValidateGetModelMetadataRequest_fields fields = OkStatus ↔
  Forall (λ metadata_field, metadata_field = kSignatureDef) fields.
Proof.
  induction fields as [|metadata_field fields IH]; simpl.
  - split; [constructor|done].
  - destruct (decide (metadata_field ≠ kSignatureDef)) as [Hne|Heq].
    + split; [done|]. intros Hall. by inversion Hall.
    + apply dec_stable in Heq. rewrite IH. split.
      * by constructor.
      * intros Hall. by inversion Hall.
Qed.

(** Validation fails only with [InvalidArgument], on the first field that is
    not [kSignatureDef]. *)
Lemma Validate_fields_error fields :
  ValidateGetModelMetadataRequest_fields fields = OkStatus ∨
  ∃ metadata_field,
    metadata_field ∈ fields ∧ metadata_field ≠ kSignatureDef ∧
    ValidateGetModelMetadataRequest_fields fields =
      InvalidArgumentError
        ("Metadata field " +:+ metadata_field +:+ " is not supported").
Proof.
  induction fields as [|metadata_field fields IH]; simpl; [by left|].
  destruct (decide (metadata_field ≠ kSignatureDef)) as [Hne|Heq].
  - right. exists metadata_field. split; [by left|done].
  - destruct IH as [Hok|(f & Hin & Hne & Herr)]; [by left|].
    right. exists f. split; [by right|done].
Qed.

(** Past validation every field takes the [kSignatureDef] branch: the loop
    ends with [OkStatus] and never reaches its own error. *)
Lemma GetModelMetadata_fields_validated fields response h :
  Forall (λ metadata_field, metadata_field = kSignatureDef) fields →
  fst (result_of (GetModelMetadata_fields fields response h)) = OkStatus.
Proof.
  revert response h.
  induction fields as [|metadata_field fields IH]; intros response h Hall;
    simpl; [done|].
  inversion Hall as [|? ? Heq Hrest]; subst.
  destruct (decide (kSignatureDef = kSignatureDef)); [|done].
  unfold mbind, Method_bind, self, inspect. simpl. by apply IH.
Qed.

(** The loop reads the heap and never writes it. *)
Lemma GetModelMetadata_fields_heap fields response h :
  heap_of (GetModelMetadata_fields fields response h) = h.
Proof.
  revert response h.
  induction fields as [|metadata_field fields IH]; intros response h; simpl;
    [done|].
  destruct (decide (metadata_field = kSignatureDef)); [|done].
  unfold mbind, Method_bind, self, inspect. simpl. apply IH.
Qed.

Lemma GetModelMetadata_heap request response h :
  heap_of (GetModelMetadata request response h) = h.
Proof.
  unfold GetModelMetadata.
  destruct (ok (ValidateGetModelMetadataRequest request)); [|done].
  apply GetModelMetadata_fields_heap.
Qed.

Lemma validation_message_is_not_loop_message field field' :
  InvalidArgumentError ("Metadata field " +:+ field +:+ " is not supported") ≠
  InvalidArgumentError ("MetadataField " +:+ field' +:+ " is not supported").
Proof. simpl. intros Heq. discriminate Heq. Qed.

(** C4: [GetModelMetadata] fails with [InvalidArgument] exactly when some
    requested metadata field is not ["signature_def"]; it then leaves the
    response (and the heap) as it found them; its status is always the one
    validation computed, so the unsupported-field branch of the processing
    loop, with its own message, is never taken. *)
Theorem GetModelMetadata_invalid_argument_iff :
  ∀ request response h,
    let r := GetModelMetadata request response h in
    ((∃ message, fst (result_of r) = ErrorStatus kInvalidArgument message) ↔
     (∃ field, field ∈ metadata_field request ∧ field ≠ kSignatureDef)) ∧
    ((∃ field, field ∈ metadata_field request ∧ field ≠ kSignatureDef) →
     snd (result_of r) = response ∧ heap_of r = h) ∧
    fst (result_of r) = ValidateGetModelMetadataRequest request ∧
    (∀ field,
       fst (result_of r) ≠
       InvalidArgumentError
         ("MetadataField " +:+ field +:+ " is not supported")) ∧
    (ok (ValidateGetModelMetadataRequest request) = true →
     ∀ response' h',
       fst (result_of (GetModelMetadata_fields (metadata_field request)
                         response' h')) = OkStatus).
Proof.
  intros request response h r. subst r.
  assert (Hstatus :
    fst (result_of (GetModelMetadata request response h)) =
    ValidateGetModelMetadataRequest request).
  { unfold GetModelMetadata.
    destruct (ValidateGetModelMetadataRequest request) as [|code message]
      eqn:Hvalid; simpl; [|done].
    apply GetModelMetadata_fields_validated. by apply Validate_fields_ok. }
  assert (Hbad :
    (∃ field, field ∈ metadata_field request ∧ field ≠ kSignatureDef) ↔
    ValidateGetModelMetadataRequest request ≠ OkStatus).
  { unfold ValidateGetModelMetadataRequest. split.
    - intros (field & Hin & Hne) Hok. apply Validate_fields_ok in Hok.
      rewrite Forall_forall in Hok. by apply Hne, Hok.
    - intros Hne.
      destruct (Validate_fields_error (metadata_field request))
        as [Hok|(field & Hin & Hfield & _)]; [done|by exists field]. }
  split; [split|split; [|split; [|split]]].
  - intros [message Hmessage]. apply Hbad. congruence.
  - intros Hfield. apply Hbad in Hfield. rewrite Hstatus.
    unfold ValidateGetModelMetadataRequest in *.
    destruct (Validate_fields_error (metadata_field request))
      as [Hok|(field & _ & _ & ->)]; [done|by eexists].
  - intros Hfield. apply Hbad in Hfield. split.
    + unfold GetModelMetadata.
      by destruct (ValidateGetModelMetadataRequest request).
    + apply GetModelMetadata_heap.
  - done.
  - intros field. rewrite Hstatus. unfold ValidateGetModelMetadataRequest.
    destruct (Validate_fields_error (metadata_field request))
      as [->|(field' & _ & _ & ->)]; [done|].
    apply validation_message_is_not_loop_message.
  - intros Hok response' h'. apply GetModelMetadata_fields_validated.
    apply Validate_fields_ok. unfold ValidateGetModelMetadataRequest in Hok.
    by destruct (ValidateGetModelMetadataRequest_fields _).
Qed.

(** *** The servable object across calls *)

Lemma Classify_this run_options request response h :
  this (heap_of (Classify run_options request response h)) = this h.
Proof. by rewrite Classify_unfold. Qed.

Lemma Regress_this run_options request response h :
  this (heap_of (Regress run_options request response h)) = this h.
Proof. by rewrite Regress_unfold. Qed.

Lemma Predict_this run_options request response h :
  this (heap_of (Predict run_options request response h)) = this h.
Proof. by rewrite Predict_unfold. Qed.

Lemma MultiInference_this run_options request response h :
  this (heap_of (MultiInference run_options request response h)) = this h.
Proof. by rewrite MultiInference_unfold. Qed.

Lemma PredictStreamed_lambda_this context request h :
  this (heap_of (PredictStreamed_lambda context request h)) = this h.
Proof. by rewrite PredictStreamed_lambda_unfold. Qed.

Lemma PredictStreamed_returns run_options response_callback h :
  PredictStreamed run_options response_callback h =
  (OkValue {| captured_run_options := run_options;
              captured_response_callback := response_callback |}, h).
Proof. reflexivity. Qed.

(** C7: the constructor sets the servable's name, version, configuration,
    model handle, thread pool factory and serialization option, and every
    operation, the streaming context's processing of a request included,
    leaves the servable object as it was. *)
Theorem servable_unchanged_by_operations :
  (∀ AS_PROTO_FIELD AS_PROTO_CONTENT name version config saved_model factory,
     let servable :=
       new_TfrtSavedModelServable AS_PROTO_FIELD AS_PROTO_CONTENT
         name version config saved_model factory in
     name_ servable = name ∧ version_ servable = version ∧
     config_ servable = config ∧ saved_model_ servable = saved_model ∧
     thread_pool_factory_ servable = factory ∧
     predict_response_tensor_serialization_option_ servable =
       serialization_option_of AS_PROTO_FIELD AS_PROTO_CONTENT
         (predict_response_tensor_serialization_option config)) ∧
  (∀ run_options h,
     (∀ request response,
        this (heap_of (Classify run_options request response h)) = this h) ∧
     (∀ request response,
        this (heap_of (Regress run_options request response h)) = this h) ∧
     (∀ request response,
        this (heap_of (Predict run_options request response h)) = this h) ∧
     (∀ response_callback,
        this (heap_of (PredictStreamed run_options response_callback h))
          = this h) ∧
     (∀ context request,
        this (heap_of (PredictStreamed_lambda context request h)) = this h) ∧
     (∀ request response,
        this (heap_of (MultiInference run_options request response h))
          = this h) ∧
     (∀ request response,
        this (heap_of (GetModelMetadata request response h)) = this h)).
Proof.
  split.
  - intros. subst servable. by split_and!.
  - intros run_options h. split_and!; intros.
    + apply Classify_this.
    + apply Regress_this.
    + apply Predict_this.
    + by rewrite PredictStreamed_returns.
    + apply PredictStreamed_lambda_this.
    + apply MultiInference_this.
    + by rewrite GetModelMetadata_heap.
Qed.

(** *** Where the per-call options live *)

(** "Never stored", read on [PredictStreamed]: the context it returns would
    be the same whatever run options the caller passed. *)
Definition PredictStreamed_stores_no_run_options : Prop :=
  ∀ run_options run_options' response_callback h,
    result_of (PredictStreamed run_options response_callback h) =
    result_of (PredictStreamed run_options' response_callback h).

(** C8, as the code has it: [Classify], [Regress], [Predict] and
    [MultiInference] use the caller's run options for the engine call and
    keep nothing of them in the servable, while [PredictStreamed] copies them
    into the context it returns; the context builds the engine's options
    from that copy when it later processes a request. *)
Theorem run_options_kept_by_streaming_context_only :
  ∀ run_options h,
    (∀ response_callback,
       result_of (PredictStreamed run_options response_callback h) =
         OkValue {| captured_run_options := run_options;
                    captured_response_callback := response_callback |} ∧
       heap_of (PredictStreamed run_options response_callback h) = h) ∧
    (∀ response_callback request,
       let context :=
         {| captured_run_options := run_options;
            captured_response_callback := response_callback |} in
       let options := streamed_run_options (this h) context request in
       tfrt_deadline options =
         tfrt_deadline (GetTFRTSavedModelRunOptions (this h) run_options) ∧
       result_of (PredictStreamed_lambda context request h) =
         fst (fst (RunPredict options (version_ (this h))
                     (predict_response_tensor_serialization_option_ (this h))
                     (saved_model_ (this h)) request PredictResponse_default
                     (thread_pool_options (this h)) (world h)))) ∧
    (∀ request response,
       this (heap_of (Classify run_options request response h)) = this h) ∧
    (∀ request response,
       this (heap_of (Regress run_options request response h)) = this h) ∧
    (∀ request response,
       this (heap_of (Predict run_options request response h)) = this h) ∧
    (∀ request response,
       this (heap_of (MultiInference run_options request response h))
         = this h).
Proof.
  intros run_options h. split_and!; intros; try done.
  - by rewrite PredictStreamed_lambda_unfold.
  - apply Classify_this.
  - apply Regress_this.
  - apply Predict_this.
  - apply MultiInference_this.
Qed.

(** *** Regress, and what only Predict reads *)

(** X1: [Regress] returns the status and the response of [RunRegress] as they
    are, called with the servable's version and model handle on the options
    built from the per-call options; those options carry no streamed-output
    callback, and the world changes only as the engine changes it. *)
Theorem Regress_returns_engine_result :
  ∀ run_options request response h,
    let options := GetTFRTSavedModelRunOptions (this h) run_options in
    let r := RunRegress options (version_ (this h)) (saved_model_ (this h))
               request response (world h) in
    result_of (Regress run_options request response h) = fst r ∧
    world (heap_of (Regress run_options request response h)) = snd r ∧
    streamed_output_callback options = None.
Proof.
  intros run_options request response h. simpl. rewrite Regress_unfold.
  split_and!; [done|done|].
  unfold GetTFRTSavedModelRunOptions. by case_decide.
Qed.

(** X2: the serialization option and the thread pool factory of the servable
    are read by [Predict] and the streaming path only: [Classify],
    [Regress], [MultiInference] and [GetModelMetadata] give the same result
    on two servables that differ in nothing else. *)
Theorem option_and_thread_pools_read_by_Predict_only :
  ∀ name version saved_model config factory factory' option_ option_' w,
    let h :=
      {| this := {| name_ := name; version_ := version;
                    saved_model_ := saved_model; config_ := config;
                    thread_pool_factory_ := factory;
                    predict_response_tensor_serialization_option_ := option_ |};
         world := w |} in
    let h' :=
      {| this := {| name_ := name; version_ := version;
                    saved_model_ := saved_model; config_ := config;
                    thread_pool_factory_ := factory';
                    predict_response_tensor_serialization_option_ := option_' |};
         world := w |} in
    (∀ run_options request response,
       result_of (Classify run_options request response h) =
       result_of (Classify run_options request response h')) ∧
    (∀ run_options request response,
       result_of (Regress run_options request response h) =
       result_of (Regress run_options request response h')) ∧
    (∀ run_options request response,
       result_of (MultiInference run_options request response h) =
       result_of (MultiInference run_options request response h')) ∧
    (∀ request response,
       result_of (GetModelMetadata request response h) =
       result_of (GetModelMetadata request response h')).
Proof.
  intros name version saved_model config factory factory' option_ option_' w
    h h'.
  split_and!; intros.
  - by rewrite !Classify_unfold.
  - by rewrite !Regress_unfold.
  - by rewrite !MultiInference_unfold.
  - unfold GetModelMetadata.
    destruct (ok (ValidateGetModelMetadataRequest request)); [|done].
    generalize response.
    induction (metadata_field request) as [|field fields IH];
      intros response'; simpl; [done|].
    destruct (decide (field = kSignatureDef)); [|done].
    unfold mbind, Method_bind, self, inspect. simpl. apply IH.
Qed.

(** *** The model spec of a streamed response *)

(** X3: the model spec of a streamed response always names a signature: the
    request's own when it gives one, the default serving key otherwise. *)
Theorem streamed_signature_name_never_empty :
  ∀ servable request,
    signature_name (streamed_model_spec servable request) ≠ "" ∧
    (signature_name (request_model_spec request) ≠ "" ↔
     signature_name (streamed_model_spec servable request) =
       signature_name (request_model_spec request)) ∧
    (signature_name (request_model_spec request) = "" →
     signature_name (streamed_model_spec servable request) =
       kDefaultServingSignatureDefKey).
Proof.
  intros servable request. unfold streamed_model_spec. simpl.
  destruct (decide (signature_name (request_model_spec request) = ""))
    as [Hempty|Hgiven].
  - rewrite Hempty. split_and!; [done| |done].
    split; [done|]. intros Heq. discriminate Heq.
  - by split_and!.
Qed.

(** X4: sending a request whose model spec is the one a streamed response
    carried gives responses with that same model spec: filling in the
    signature name and the version is idempotent. *)
Theorem streamed_model_spec_idempotent :
  ∀ servable request inputs output_filter,
    streamed_model_spec servable
      {| request_model_spec := streamed_model_spec servable request;
         request_inputs := inputs;
         request_output_filter := output_filter |} =
    streamed_model_spec servable request.
Proof.
  intros servable request inputs output_filter.
  unfold streamed_model_spec. simpl.
  destruct (decide (signature_name (request_model_spec request) = ""))
    as [Hempty|Hgiven]; simpl.
  - by destruct (decide (kDefaultServingSignatureDefKey = "")).
  - by destruct (decide (signature_name (request_model_spec request) = "")).
Qed.

(** *** GetModelMetadata on supported and unsupported fields *)

(** The copy of the model's signatures into the [SignatureDefMap] is the
    same map. *)
Lemma signature_def_map_copy (signature_def : gmap string SignatureDef) :
  map_fold (λ first second signature_def_map,
              <[first := second]> signature_def_map)
    ∅ signature_def = signature_def.
Proof.
  apply (map_fold_weak_ind
           (λ (copy : gmap string SignatureDef) m, copy = m)); [done|].
  by intros first second m copy _ ->.
Qed.

Lemma put_signature_def_idempotent servable signature_def response :
  put_signature_def servable signature_def
    (put_signature_def servable signature_def response) =
  put_signature_def servable signature_def response.
Proof.
  unfold put_signature_def, mutable_model_spec. simpl.
  by rewrite insert_insert_eq.
Qed.

(** On supported fields the loop fills the response once, however many
    fields there are. *)
Lemma GetModelMetadata_fields_supported fields response h :
  Forall (λ metadata_field, metadata_field = kSignatureDef) fields →
  GetModelMetadata_fields fields response h =
  ((OkStatus,
    match fields with
    | [] => response
    | _ :: _ =>
        put_signature_def (this h)
          (GetMetaGraphDef_signature_def (saved_model_ (this h)) (world h))
          response
    end), h).
Proof.
  revert response.
  induction fields as [|metadata_field fields IH]; intros response Hall;
    simpl; [done|].
  inversion Hall as [|? ? Heq Hrest]; subst.
  destruct (decide (kSignatureDef = kSignatureDef)); [|done].
  unfold mbind, Method_bind, self, inspect. simpl.
  rewrite (IH _ Hrest). destruct fields; [done|].
  by rewrite put_signature_def_idempotent.
Qed.

Lemma Validate_fields_first_unsupported supported field rest :
  Forall (λ metadata_field, metadata_field = kSignatureDef) supported →
  field ≠ kSignatureDef →
  ValidateGetModelMetadataRequest_fields (supported ++ field :: rest) =
  InvalidArgumentError ("Metadata field " +:+ field +:+ " is not supported").
Proof.
  intros Hsupported Hfield.
  induction Hsupported as [|metadata_field supported Heq _ IH]; simpl.
  - by destruct (decide (field ≠ kSignatureDef)).
  - by destruct (decide (metadata_field ≠ kSignatureDef)).
Qed.

(** X5: when the request's metadata fields are some ["signature_def"]
    fields followed by a field that is not, [GetModelMetadata] fails with
    [InvalidArgument] and a message that names that first unsupported field,
    whatever follows it, and gives the response and the heap back as they
    were. *)
Theorem GetModelMetadata_names_first_unsupported_field :
  ∀ request supported field rest,
    metadata_field request = supported ++ field :: rest →
    Forall (λ metadata_field, metadata_field = kSignatureDef) supported →
    field ≠ kSignatureDef →
    ∀ response h,
      GetModelMetadata request response h =
      ((InvalidArgumentError
          ("Metadata field " +:+ field +:+ " is not supported"),
        response), h).
Proof.
  intros request supported field rest Hfields Hsupported Hfield response h.
  unfold GetModelMetadata, ValidateGetModelMetadataRequest.
  rewrite Hfields.
  by rewrite (Validate_fields_first_unsupported _ _ _ Hsupported Hfield).
Qed.

(** X6: when every metadata field of the request is ["signature_def"],
    [GetModelMetadata] succeeds and leaves the heap as it was.  With no field
    at all the response comes back untouched; with one or more, the response
    gets the servable's name and version in its model spec (the signature
    name it had is kept) and, under ["signature_def"], the packed signatures
    of the model, its other metadata entries staying as they were. *)
Theorem GetModelMetadata_on_supported_fields :
  ∀ request response h,
    Forall (λ metadata_field, metadata_field = kSignatureDef)
      (metadata_field request) →
    GetModelMetadata request response h =
    ((OkStatus,
      if decide (metadata_field request = []) then response
      else
        {| metadata_response_model_spec :=
             Some {| name := name_ (this h);
                     version_choice := kVersion (version_ (this h));
                     signature_name :=
                       default ""
                         (signature_name <$>
                            metadata_response_model_spec response) |};
           metadata :=
             <[kSignatureDef :=
                 PackFrom
                   (GetMetaGraphDef_signature_def (saved_model_ (this h))
                      (world h))]>
               (metadata response) |}), h).
Proof.
  intros request response h Hsupported.
  unfold GetModelMetadata, ValidateGetModelMetadataRequest.
  rewrite (proj2 (Validate_fields_ok _) Hsupported). simpl.
  rewrite (GetModelMetadata_fields_supported _ _ _ Hsupported).
  destruct (metadata_field request) as [|metadata_field fields]; [done|].
  destruct (decide (metadata_field :: fields = [])); [done|].
  unfold put_signature_def, mutable_model_spec.
  rewrite signature_def_map_copy.
  by destruct (metadata_response_model_spec response).
Qed.

(** X7: [GetModelMetadata] is idempotent: run again on the response and the
    heap it produced, it returns the same status and the same response, for
    every request, supported or not. *)
Theorem GetModelMetadata_idempotent :
  ∀ request response h,
    GetModelMetadata request
      (snd (result_of (GetModelMetadata request response h)))
      (heap_of (GetModelMetadata request response h)) =
    GetModelMetadata request response h.
Proof.
  intros request response h. rewrite GetModelMetadata_heap.
  unfold GetModelMetadata, ValidateGetModelMetadataRequest.
  destruct (ValidateGetModelMetadataRequest_fields (metadata_field request))
    as [|code message] eqn:Hvalid; simpl; [|done].
  apply Validate_fields_ok in Hvalid.
  rewrite !(GetModelMetadata_fields_supported _ _ _ Hvalid). simpl.
  destruct (metadata_field request); [done|].
  by rewrite put_signature_def_idempotent.
Qed.

(** *** Creating a servable *)

Lemma tags_as_unordered_set (tags : gset string) :
  list_to_set (elements tags) = tags.
Proof. apply list_to_set_elements_L. Qed.

(** X8: [CreateTfrtSavedModelServable] calls the loader once, with the tags
    it was given, and fails exactly when the loader fails, with the loader's
    status; the world is the one the loader left. *)
Theorem CreateTfrtSavedModelServable_fails_as_the_loader :
  ∀ AS_PROTO_FIELD AS_PROTO_CONTENT options name version saved_model_dir
    tags w,
    let loaded := LoadSavedModel options saved_model_dir tags w in
    let created :=
      CreateTfrtSavedModelServable AS_PROTO_FIELD AS_PROTO_CONTENT options
        name version saved_model_dir tags w in
    created.2 = loaded.2 ∧
    (∀ status, created.1 = NotOk status ↔ loaded.1 = NotOk status) ∧
    (∀ servable,
       created.1 = OkValue servable →
       loaded.1 = OkValue (saved_model_ servable)).
Proof.
  intros F C options name version saved_model_dir tags w. simpl.
  unfold CreateTfrtSavedModelServable. rewrite tags_as_unordered_set.
  destruct (LoadSavedModel options saved_model_dir tags w)
    as [[saved_model|status] w']; simpl.
  - split_and!; [done| |by intros servable [= <-]].
    intros status. by split.
  - split_and!; [done| |done].
    intros status'. split; by intros [= ->].
Qed.

(** X9: when the loader succeeds and [AS_PROTO_CONTENT] is not the enum's
    default value 0, the created servable has the given name and version and
    the loaded model, serializes predict responses as proto field, runs
    [Predict] on the default thread pool options, and asks the engine for no
    input validation, whatever the per-call options. *)
Theorem created_servable_has_default_configuration :
  ∀ AS_PROTO_FIELD AS_PROTO_CONTENT options name version saved_model_dir
    tags w saved_model,
    AS_PROTO_CONTENT ≠ 0%Z →
    (LoadSavedModel options saved_model_dir tags w).1 = OkValue saved_model →
    ∃ servable,
      (CreateTfrtSavedModelServable AS_PROTO_FIELD AS_PROTO_CONTENT options
         name version saved_model_dir tags w).1 = OkValue servable ∧
      name_ servable = name ∧
      version_ servable = version ∧
      saved_model_ servable = saved_model ∧
      predict_response_tensor_serialization_option_ servable = kAsProtoField ∧
      thread_pool_options servable = default_ThreadPoolOptions ∧
      ∀ run_options,
        tfrt_validate_input_specs
          (GetTFRTSavedModelRunOptions servable run_options) = false ∧
        tfrt_validate_input_specs_dry_run
          (GetTFRTSavedModelRunOptions servable run_options) = false.
Proof.
  intros F C options name version saved_model_dir tags w saved_model
    Hcontent Hloaded.
  unfold CreateTfrtSavedModelServable. rewrite tags_as_unordered_set, Hloaded.
  eexists. split; [done|]. simpl. split_and!; try done.
  unfold serialization_option_of.
  destruct (decide (0%Z = F)); [done|].
  by destruct (decide (0%Z = C)).
Qed.

(** *** Streaming against an engine that streams nothing *)

(** X10: for an engine whose result does not depend on the streamed-output
    callback, the streaming lambda behaves as [Predict] called with the
    stored run options on an empty response, except that the response is
    dropped: same status, same heap afterwards. *)
Theorem PredictStreamed_lambda_as_Predict :
  (∀ options options' version option_ saved_model request response pools w,
     tfrt_deadline options = tfrt_deadline options' →
     tfrt_validate_input_specs options =
       tfrt_validate_input_specs options' →
     tfrt_validate_input_specs_dry_run options =
       tfrt_validate_input_specs_dry_run options' →
     RunPredict options version option_ saved_model request response pools w =
     RunPredict options' version option_ saved_model request response pools w) →
  ∀ context request h,
    PredictStreamed_lambda context request h =
    (fst (result_of (Predict (captured_run_options context) request
                       PredictResponse_default h)),
     heap_of (Predict (captured_run_options context) request
                PredictResponse_default h)).
Proof.
  intros Hsilent context request h.
  rewrite PredictStreamed_lambda_unfold, Predict_unfold. simpl.
  by rewrite (Hsilent (streamed_run_options (this h) context request)
                (GetTFRTSavedModelRunOptions (this h)
                   (captured_run_options context))).
Qed.

End Servable.

(** ** A small concrete instance *)

(** Tensors are integers; a serialized tensor records which of the two
    encodings produced it. *)
Inductive ToyTensorProto :=
  | FieldEncoded (tensor : Z)
  | ContentEncoded (tensor : Z).

(** The world is the log of what the response callback received, newest
    first. *)
Definition ToyWorld : Type :=
  list (StatusOr (@PredictResponse ToyTensorProto)).

Definition toy_response_callback
    (response : StatusOr (@PredictResponse ToyTensorProto)) (w : ToyWorld) :
    ToyWorld :=
  response :: w.

(** An engine that streams one output map through the callback, when there
    is one, and puts one tensor in the response, encoded as it was asked. *)
Definition toy_RunPredict
    (options : @TfrtRunOptions ToyWorld Z (option Z)) (version : Z)
    (option_ : PredictResponseTensorSerializationOption) (saved_model : unit)
    (request : @PredictRequest ToyTensorProto)
    (response : @PredictResponse ToyTensorProto) (pools : unit)
    (w : ToyWorld) :
    (Status * @PredictResponse ToyTensorProto) * ToyWorld :=
  let w :=
    match streamed_output_callback options with
    | Some callback => callback {[ "y" := 7%Z ]} w
    | None => w
    end in
  let encoded :=
    match option_ with
    | kAsProtoField => FieldEncoded 9
    | kAsProtoContent => ContentEncoded 9
    end in
  ((OkStatus,
    {| response_model_spec := response_model_spec response;
       response_outputs := <[ "z" := encoded ]> (response_outputs response) |}),
   w).

Definition toy_ToChronoTime (t : Time) : option Z :=
  match t with TimeAt ticks => Some ticks | _ => None end.

Definition toy_config : TfrtSavedModelConfig :=
  {| predict_response_tensor_serialization_option := 1;
     validate_input_specs := true;
     validate_input_specs_dry_run := false |}.

(** A servable of version 3 configured with [AS_PROTO_CONTENT], the
    enumerators being 0 and 1. *)
Definition toy_servable : @TfrtSavedModelServable unit unit :=
  new_TfrtSavedModelServable 0 1 "m" 3 toy_config () None.

Definition toy_heap : @Heap ToyWorld unit unit :=
  {| this := toy_servable; world := [] |}.

Definition toy_request : @PredictRequest ToyTensorProto :=
  {| request_model_spec :=
       {| name := "m"; version_choice := kVersionLabel "stable";
          signature_name := "" |};
     request_inputs := ∅;
     request_output_filter := [] |}.

Definition toy_run_options : RunOptions :=
  {| deadline := TimeAt 5; input_validation := false;
     input_validation_dry_run := true |}.

Definition no_deadline : RunOptions :=
  {| deadline := InfiniteFuture; input_validation := false;
     input_validation_dry_run := false |}.

Definition toy_context : @PredictStreamedContext ToyWorld ToyTensorProto :=
  {| captured_run_options := toy_run_options;
     captured_response_callback := toy_response_callback |}.

Example toy_servable_option :
  predict_response_tensor_serialization_option_ toy_servable = kAsProtoContent.
Proof. reflexivity. Qed.

(** The streamed response is field-encoded although the servable is
    configured for proto content, and carries the servable's version and the
    default signature name. *)
Example toy_PredictStreamed_lambda :
  PredictStreamed_lambda FieldEncoded toy_ToChronoTime () (λ _, ())
    toy_RunPredict toy_context toy_request toy_heap =
  (OkStatus,
   {| this := toy_servable;
      world :=
        [ OkValue
            {| response_model_spec :=
                 Some {| name := "m"; version_choice := kVersion 3;
                         signature_name := "serving_default" |};
               response_outputs := {[ "y" := FieldEncoded 7 ]} |} ] |}).
Proof. vm_compute. reflexivity. Qed.

(** The same engine asked through [Predict] encodes as configured. *)
Example toy_Predict :
  result_of
    (Predict toy_ToChronoTime () (λ _, ()) toy_RunPredict toy_run_options
       toy_request PredictResponse_default toy_heap) =
  (OkStatus,
   {| response_model_spec := None;
      response_outputs := {[ "z" := ContentEncoded 9 ]} |}).
Proof. vm_compute. reflexivity. Qed.

Example toy_GetTFRTSavedModelRunOptions :
  tfrt_deadline
    (GetTFRTSavedModelRunOptions (World := ToyWorld) (Tensor := Z)
       toy_ToChronoTime toy_servable toy_run_options) = Some (Some 5%Z) ∧
  tfrt_deadline
    (GetTFRTSavedModelRunOptions (World := ToyWorld) (Tensor := Z)
       toy_ToChronoTime toy_servable no_deadline) = None ∧
  tfrt_validate_input_specs
    (GetTFRTSavedModelRunOptions (World := ToyWorld) (Tensor := Z)
       toy_ToChronoTime toy_servable toy_run_options) = true ∧
  tfrt_validate_input_specs_dry_run
    (GetTFRTSavedModelRunOptions (World := ToyWorld) (Tensor := Z)
       toy_ToChronoTime toy_servable toy_run_options) = false.
Proof. by split_and!. Qed.

Example toy_ValidateGetModelMetadataRequest :
  ValidateGetModelMetadataRequest
    {| metadata_request_model_spec := ModelSpec_default;
       metadata_field := ["signature_def"; "graph_def"; "signature_def"] |} =
  ErrorStatus kInvalidArgument "Metadata field graph_def is not supported".
Proof. reflexivity. Qed.

(** The two enumerators 0 and 1 are distinct, and a servable built from a
    configuration holding 1 serializes as proto content. *)
Lemma constructed_serialization_option_witness :
  (0 ≠ 1)%Z ∧
  (predict_response_tensor_serialization_option_ toy_servable = kAsProtoContent
   ↔ predict_response_tensor_serialization_option toy_config = 1%Z) ∧
  (predict_response_tensor_serialization_option toy_config ≠ 1%Z →
   predict_response_tensor_serialization_option_ toy_servable = kAsProtoField).
Proof.
  split; [lia|].
  apply (constructed_serialization_option 0 1); lia.
Defined.

(** C8 as stated fails: the context [PredictStreamed] returns holds the run
    options it was called with, so two calls that differ only in their
    deadline return different contexts. *)
Lemma PredictStreamed_context_keeps_run_options :
  ¬ PredictStreamed_stores_no_run_options
      (World := ToyWorld) (TensorProto := ToyTensorProto)
      (SavedModel := unit) (ThreadPoolFactory := unit).
Proof.
  intros Hsame.
  specialize (Hsame toy_run_options no_deadline toy_response_callback toy_heap).
  vm_compute in Hsame. discriminate Hsame.
Qed.

(** The stored copy is what the engine later sees: the deadline of a request
    processed by the context is the one given to [PredictStreamed]. *)
Example toy_context_deadline :
  tfrt_deadline
    (streamed_run_options FieldEncoded toy_ToChronoTime toy_servable
       toy_context toy_request) = Some (Some 5%Z).
Proof. reflexivity. Qed.

(** ** More of the concrete instance *)

(** The toy model has one signature; packing a signature map keeps the
    map. *)
Definition toy_signature_def (saved_model : unit) (w : ToyWorld) :
    gmap string Z :=
  {[ "serving_default" := 1%Z ]}.

Definition toy_PackFrom (signature_def_map : gmap string Z) : gmap string Z :=
  signature_def_map.

Definition toy_metadata_response :
    @GetModelMetadataResponse (gmap string Z) :=
  {| metadata_response_model_spec := None; metadata := ∅ |}.

Definition toy_supported_request : GetModelMetadataRequest :=
  {| metadata_request_model_spec := ModelSpec_default;
     metadata_field := ["signature_def"; "signature_def"] |}.

Definition toy_unsupported_request : GetModelMetadataRequest :=
  {| metadata_request_model_spec := ModelSpec_default;
     metadata_field := ["signature_def"; "graph_def"; "signature_def"] |}.

(** A loader that finds a model in every directory but the empty one. *)
Definition toy_LoadSavedModel (options : unit) (saved_model_dir : string)
    (tags : gset string) (w : ToyWorld) : StatusOr unit * ToyWorld :=
  if decide (saved_model_dir = "")
  then (NotOk (ErrorStatus kNotFound "no such directory"), w)
  else (OkValue (), w).

(** An engine that streams nothing and answers with the response it was
    given. *)
Definition toy_RunPredict_silent
    (options : @TfrtRunOptions ToyWorld Z (option Z)) (version : Z)
    (option_ : PredictResponseTensorSerializationOption) (saved_model : unit)
    (request : @PredictRequest ToyTensorProto)
    (response : @PredictResponse ToyTensorProto) (pools : unit)
    (w : ToyWorld) :
    (Status * @PredictResponse ToyTensorProto) * ToyWorld :=
  ((ErrorStatus kUnavailable "busy", response), w).

(** The first unsupported field of the toy request is ["graph_def"]. *)
Lemma GetModelMetadata_names_first_unsupported_field_witness :
  GetModelMetadata toy_signature_def toy_PackFrom toy_unsupported_request
    toy_metadata_response toy_heap =
  ((ErrorStatus kInvalidArgument "Metadata field graph_def is not supported",
    toy_metadata_response), toy_heap).
Proof.
  apply (GetModelMetadata_names_first_unsupported_field
           toy_signature_def toy_PackFrom toy_unsupported_request
           ["signature_def"] "graph_def" ["signature_def"]).
  - reflexivity.
  - repeat constructor.
  - discriminate.
Defined.

(** Two ["signature_def"] fields fill the response once. *)
Lemma GetModelMetadata_on_supported_fields_witness :
  GetModelMetadata toy_signature_def toy_PackFrom toy_supported_request
    toy_metadata_response toy_heap =
  ((OkStatus,
    {| metadata_response_model_spec :=
         Some {| name := "m"; version_choice := kVersion 3;
                 signature_name := "" |};
       metadata :=
         <[kSignatureDef := {[ "serving_default" := 1%Z ]}]> ∅ |}),
   toy_heap).
Proof.
  apply (GetModelMetadata_on_supported_fields
           toy_signature_def toy_PackFrom toy_supported_request
           toy_metadata_response toy_heap).
  repeat constructor.
Defined.

(** A servable created from a directory the toy loader knows, the
    enumerators being 0 and 1. *)
Lemma created_servable_has_default_configuration_witness :
  ∃ servable : @TfrtSavedModelServable unit unit,
    (CreateTfrtSavedModelServable toy_LoadSavedModel 0 1 () "m" 3 "/models/m"
       {[ "serve" ]} []).1 = OkValue servable ∧
    name_ servable = "m" ∧
    version_ servable = 3%Z ∧
    saved_model_ servable = () ∧
    predict_response_tensor_serialization_option_ servable = kAsProtoField ∧
    thread_pool_options () (λ _ : unit, ()) servable = () ∧
    ∀ run_options,
      tfrt_validate_input_specs
        (GetTFRTSavedModelRunOptions (World := ToyWorld) (Tensor := Z)
           toy_ToChronoTime servable run_options) = false ∧
      tfrt_validate_input_specs_dry_run
        (GetTFRTSavedModelRunOptions (World := ToyWorld) (Tensor := Z)
           toy_ToChronoTime servable run_options) = false.
Proof.
  apply (created_servable_has_default_configuration (Tensor := Z)
           toy_ToChronoTime () (λ _ : unit, ()) toy_LoadSavedModel
           0 1 () "m" 3 "/models/m" {[ "serve" ]} [] ()).
  - lia.
  - reflexivity.
Defined.

(** Against the silent engine the streaming lambda returns what [Predict]
    returns. *)
Lemma PredictStreamed_lambda_as_Predict_witness :
  PredictStreamed_lambda FieldEncoded toy_ToChronoTime () (λ _, ())
    toy_RunPredict_silent toy_context toy_request toy_heap =
  (fst (result_of
          (Predict toy_ToChronoTime () (λ _, ()) toy_RunPredict_silent
             (captured_run_options toy_context) toy_request
             PredictResponse_default toy_heap)),
   heap_of
     (Predict toy_ToChronoTime () (λ _, ()) toy_RunPredict_silent
        (captured_run_options toy_context) toy_request
        PredictResponse_default toy_heap)).
Proof.
  apply (PredictStreamed_lambda_as_Predict FieldEncoded toy_ToChronoTime ()
           (λ _, ()) toy_RunPredict_silent).
  intros. reflexivity.
Defined.

Example toy_CreateTfrtSavedModelServable_fails :
  CreateTfrtSavedModelServable (ThreadPoolFactory := unit) toy_LoadSavedModel
    0 1 () "m" 3 "" {[ "serve" ]} [] =
  (NotOk (ErrorStatus kNotFound "no such directory"), []).
Proof. reflexivity. Qed.

End TfrtServable.

(** * The routing and lifecycle core beneath the adapter

    The version selector, the request router and the streaming session are
    not in [tfrt_servable.cc]; the definitions of this module follow the
    specification's component design (sections 4.1, 4.3 and 4.4). *)

Module RoutingCore.

(** Modelled from the spec: [ServableState], the load state each servable of
    the registry carries (data model). *)
Inductive ServableState :=
  | kLoading
  | kAvailable
  | kRetiring
  | kUnloaded.

Global Instance ServableState_eq_dec : EqDecision ServableState.
Proof. solve_decision. Defined.

(** Modelled from the spec: the errors of the version selector (4.1). *)
Inductive SelectorError :=
  | VersionNotAvailable
  | NoAvailableVersion.

(** Modelled from the spec: the caller-facing error kinds (section 7). *)
Inductive ErrorKind :=
  | ModelNotFound
  | VersionNotAvailableKind
  | DuplicateVersion
  | UnsupportedOperation
  | StillInUse
  | RuntimeError
  | DeadlineExceeded.

(** Modelled from the spec: the translation of a selector error to its
    caller-facing kind (4.3; section 8 pairs [NoAvailableVersion] with
    [ModelNotFound]). *)
Definition caller_facing (e : SelectorError) : ErrorKind :=
  match e with
  | NoAvailableVersion => ModelNotFound
  | VersionNotAvailable => VersionNotAvailableKind
  end.

(** Modelled from the spec: the operation set of a servable and the tags the
    router dispatches on (4.3); a tag outside the table is unknown. *)
Inductive Operation :=
  | OpClassify
  | OpRegress
  | OpPredict
  | OpMultiInference
  | OpGetModelMetadata.

Inductive OperationTag :=
  | KnownTag (operation : Operation)
  | UnknownTag (tag : string).

Definition dispatch (tag : OperationTag) : option Operation :=
  match tag with
  | KnownTag operation => Some operation
  | UnknownTag _ => None
  end.

(** Modelled from the spec: the [VersionSet] of a name is a map from version
    number to state, so a (name, version) pair has at most one servable; the
    registry maps names to version sets. *)
Definition versions (registry : gmap string (gmap Z ServableState))
    (name : string) : gmap Z ServableState :=
  default ∅ (registry !! name).

(** Modelled from the spec: [listAvailable], the versions of a name in state
    [kAvailable]. *)
Definition listAvailable (registry : gmap string (gmap Z ServableState))
    (name : string) : list Z :=
  (map_to_list (filter (λ entry, entry.2 = kAvailable) (versions registry name))).*1.

(** The highest number of a list of versions, if it has any. *)
Fixpoint highest (l : list Z) : option Z :=
  match l with
  | [] => None
  | v :: l =>
      match highest l with
      | None => Some v
      | Some m => Some (Z.max v m)
      end
  end.

(** Modelled from the spec: [select(name, requestedVersion?)] of the version
    selector (4.1). *)
Definition select (registry : gmap string (gmap Z ServableState))
    (name : string) (requestedVersion : option Z) :
    SelectorError + (string * Z) :=
  match requestedVersion with
  | Some version =>
      match versions registry name !! version with
      | Some kAvailable => inr (name, version)
      | _ => inl VersionNotAvailable
      end
  | None =>
      match highest (listAvailable registry name) with
      | Some version => inr (name, version)
      | None => inl NoAvailableVersion
      end
  end.

Section Core.

(** The payloads and responses are opaque typed messages; the execution
    engine of a servable answers with a response or a runtime error. *)
Context {Payload Response : Type}.
Variable engine : string → Z → Operation → Payload → string + Response.

(** The streamed predict operation of a servable: the responses it hands to
    the callback for a chunk, and whether the call then failed. *)
Variable predictStreamed :
  string → Z → Payload → list Response * option string.

(** Modelled from the spec: the state the router and the sessions share: the
    registry, the in-flight counter and the call counter of each
    (name, version), and the calls made to the execution engine so far,
    newest first. *)
Record CoreState := {
  registry : gmap string (gmap Z ServableState);
  in_flight : gmap (string * Z) Z;
  call_count : gmap (string * Z) nat;
  engine_calls : list (string * Z * Operation);
  streamed_calls : list (string * Z);
}.

Definition counter (st : CoreState) (key : string * Z) : Z :=
  default 0%Z (in_flight st !! key).

Definition add_in_flight (key : string * Z) (delta : Z) (st : CoreState) :
    CoreState :=
  {| registry := registry st;
     in_flight := <[key := (counter st key + delta)%Z]> (in_flight st);
     call_count := call_count st;
     engine_calls := engine_calls st;
     streamed_calls := streamed_calls st |}.

Definition count_call (key : string * Z) (st : CoreState) : CoreState :=
  {| registry := registry st;
     in_flight := in_flight st;
     call_count := <[key := S (default 0 (call_count st !! key))]> (call_count st);
     engine_calls := engine_calls st;
     streamed_calls := streamed_calls st |}.

Definition log_engine_call (call : string * Z * Operation) (st : CoreState) :
    CoreState :=
  {| registry := registry st;
     in_flight := in_flight st;
     call_count := call_count st;
     engine_calls := call :: engine_calls st;
     streamed_calls := streamed_calls st |}.

Definition log_streamed_call (key : string * Z) (st : CoreState) : CoreState :=
  {| registry := registry st;
     in_flight := in_flight st;
     call_count := call_count st;
     engine_calls := engine_calls st;
     streamed_calls := key :: streamed_calls st |}.

(** Modelled from the spec: the errors [route] returns: a failed resolution
    carries the selector's error (its caller-facing kind is [caller_facing]);
    the engine's failure is surfaced verbatim. *)
Inductive RouteError :=
  | ResolutionFailed (e : SelectorError)
  | UnsupportedOperationTag
  | EngineFailed (message : string).

(** Modelled from the spec: [route(name, requestedVersion?, operation,
    payload)] of the request router (4.3): resolve; on failure touch nothing;
    otherwise hold the in-flight counter around the dispatched call and count
    a successful dispatch. *)
Definition route (name : string) (requestedVersion : option Z)
    (tag : OperationTag) (payload : Payload) (st : CoreState) :
    (RouteError + Response) * CoreState :=
  match select (registry st) name requestedVersion with
  | inl e => (inl (ResolutionFailed e), st)
  | inr key =>
      let st := add_in_flight key 1 st in
      match dispatch tag with
      | None => (inl UnsupportedOperationTag, add_in_flight key (-1) st)
      | Some operation =>
          let st := log_engine_call (key, operation) st in
          match engine key.1 key.2 operation payload with
          | inl message =>
              (inl (EngineFailed message), add_in_flight key (-1) st)
          | inr response =>
              (inr response, add_in_flight key (-1) (count_call key st))
          end
      end
  end.

(** Modelled from the spec: the states of a streaming session (4.4). *)
Inductive SessionState :=
  | Open
  | AwaitingChunk
  | Completed
  | Failed.

Definition live (state : SessionState) : bool :=
  match state with
  | Open | AwaitingChunk => true
  | Completed | Failed => false
  end.

Inductive SessionError :=
  | SessionClosed
  | ModelCallFailed (message : string).

(** Modelled from the spec: a streaming session: its state, the servable it
    pinned when it was opened, held until released, and what its callback has
    received so far, newest first. *)
Record StreamingSession := {
  session_state : SessionState;
  pinned : option (string * Z);
  delivered : list (SessionError + Response);
}.

(** Modelled from the spec: [open(name, requestedVersion?)] resolves once and
    holds the in-flight counter of the pinned servable for the session. *)
Definition open (name : string) (requestedVersion : option Z)
    (st : CoreState) : (RouteError + StreamingSession) * CoreState :=
  match select (registry st) name requestedVersion with
  | inl e => (inl (ResolutionFailed e), st)
  | inr key =>
      (inr {| session_state := Open; pinned := Some key; delivered := [] |},
       add_in_flight key 1 st)
  end.

(** Decrement the counter of the pinned servable and drop the pin. *)
Definition release (session : StreamingSession) (st : CoreState) : CoreState :=
  match pinned session with
  | Some key => add_in_flight key (-1) st
  | None => st
  end.

(** Modelled from the spec: [close()]: a session that is still open becomes
    [Completed] and releases its reference; closing a closed session does
    nothing. *)
Definition close (c : StreamingSession * CoreState) :
    StreamingSession * CoreState :=
  let '(session, st) := c in
  if live (session_state session) then
    ({| session_state := Completed; pinned := None;
        delivered := delivered session |},
     release session st)
  else (session, st).

(** Modelled from the spec: [sendChunk(payload)]: valid only in [Open] and
    [AwaitingChunk]; the chunk goes to the pinned servable, whose responses
    reach the callback; a failure of the model call makes the session
    [Failed], delivers the terminal error and releases the reference. *)
Definition sendChunk (payload : Payload) (c : StreamingSession * CoreState) :
    (SessionError + unit) * (StreamingSession * CoreState) :=
  let '(session, st) := c in
  if live (session_state session) then
    match pinned session with
    | Some key =>
        let '(responses, failure) := predictStreamed key.1 key.2 payload in
        let st := log_streamed_call key st in
        let received := reverse (inr <$> responses) ++ delivered session in
        match failure with
        | None =>
            (inr (),
             ({| session_state := AwaitingChunk; pinned := Some key;
                 delivered := received |}, st))
        | Some message =>
            (inl (ModelCallFailed message),
             ({| session_state := Failed; pinned := None;
                 delivered := inl (ModelCallFailed message) :: received |},
              release session st))
        end
    | None => (inl SessionClosed, (session, st))
    end
  else (inl SessionClosed, (session, st)).

(** What may happen to a session and the core it shares with the router. *)
Inductive Event :=
  | SendChunk (payload : Payload)
  | Close
  | Route (name : string) (requestedVersion : option Z) (tag : OperationTag)
      (payload : Payload).

Definition step (event : Event) (c : StreamingSession * CoreState) :
    StreamingSession * CoreState :=
  match event with
  | SendChunk payload => snd (sendChunk payload c)
  | Close => close c
  | Route name requestedVersion tag payload =>
      (fst c, snd (route name requestedVersion tag payload (snd c)))
  end.

Definition run (events : list Event) (c : StreamingSession * CoreState) :
    StreamingSession * CoreState :=
  foldl (λ c event, step event c) c events.

(** ** Version selection and routing *)

Lemma highest_None l : highest l = None ↔ l = [].
Proof.
  destruct l as [|v l]; simpl; [done|].
  by destruct (highest l).
Qed.

Lemma highest_Some l m :
  highest l = Some m → m ∈ l ∧ ∀ v, v ∈ l → (v ≤ m)%Z.
Proof.
  revert m. induction l as [|v l IH]; intros m; simpl; [done|].
  destruct (highest l) as [m'|] eqn:Hl.
  - intros [= <-]. destruct (IH m' eq_refl) as [Hin Hmax]. split.
    + destruct (Z.max_spec v m') as [[_ ->]|[_ ->]]; [by right|by left].
    + intros v' [->|Hv']%elem_of_cons; [lia|].
      specialize (Hmax v' Hv'). lia.
  - intros [= <-]. apply highest_None in Hl as ->. split; [by left|].
    intros v' [->|Hv']%elem_of_cons; [lia|]. by apply elem_of_nil in Hv'.
Qed.

Lemma elem_of_listAvailable reg name v :
  v ∈ listAvailable reg name ↔ versions reg name !! v = Some kAvailable.
Proof.
  unfold listAvailable. rewrite list_elem_of_fmap. split.
  - intros ([v' state] & -> & Hin). simpl.
    apply elem_of_map_to_list in Hin.
    apply map_lookup_filter_Some in Hin as [Hlookup Hstate].
    simpl in Hstate. by subst.
  - intros Hlookup. exists (v, kAvailable). split; [done|].
    apply elem_of_map_to_list, map_lookup_filter_Some. by split.
Qed.

(** C9: with no explicit version, selection returns the available servable
    of the name with the highest version number, and fails with
    [NoAvailableVersion] when the name has none; for a name with no available
    version [route] fails with the selector's error ([NoAvailableVersion],
    caller-facing [ModelNotFound], when no version was requested) and leaves
    the whole core state, the record of engine calls included, untouched. *)
Theorem latest_available_selected_or_NoAvailableVersion :
  ∀ reg name,
    match select reg name None with
    | inr (selected, version) =>
        selected = name ∧
        versions reg name !! version = Some kAvailable ∧
        ∀ version', versions reg name !! version' = Some kAvailable →
                    (version' ≤ version)%Z
    | inl e =>
        e = NoAvailableVersion ∧
        (∀ version, versions reg name !! version ≠ Some kAvailable) ∧
        ∀ requestedVersion tag payload st,
          registry st = reg →
          ∃ e',
            route name requestedVersion tag payload st =
              (inl (ResolutionFailed e'), st) ∧
            engine_calls
              (snd (route name requestedVersion tag payload st)) =
              engine_calls st ∧
            (requestedVersion = None →
             e' = NoAvailableVersion ∧ caller_facing e' = ModelNotFound)
    end.
Proof.
  intros reg name. unfold select.
  destruct (highest (listAvailable reg name)) as [version|] eqn:Hhighest.
  - apply highest_Some in Hhighest as [Hin Hmax]. split_and!; [done|..].
    + by apply elem_of_listAvailable.
    + intros version' Hversion'. by apply Hmax, elem_of_listAvailable.
  - apply highest_None in Hhighest.
    assert (Hnone : ∀ version,
              versions reg name !! version ≠ Some kAvailable).
    { intros version Hversion. apply elem_of_listAvailable in Hversion.
      rewrite Hhighest in Hversion. by apply elem_of_nil in Hversion. }
    split_and!; [done|done|].
    intros requestedVersion tag payload st <-. unfold route, select.
    destruct requestedVersion as [version|].
    + exists VersionNotAvailable. specialize (Hnone version).
      destruct (versions (registry st) name !! version) as [[]|];
        by split_and!.
    + exists NoAvailableVersion.
      rewrite Hhighest. simpl. by split_and!.
Qed.

(** ** Streaming sessions and the in-flight counter *)

Lemma counter_add_in_flight key delta st key' :
  counter (add_in_flight key delta st) key' =
  if decide (key = key') then (counter st key + delta)%Z else counter st key'.
Proof.
  unfold counter at 1. simpl. rewrite lookup_insert.
  by destruct (decide (key = key')).
Qed.

Lemma counter_log_engine_call call st key :
  counter (log_engine_call call st) key = counter st key.
Proof. reflexivity. Qed.

Lemma counter_count_call key' st key :
  counter (count_call key' st) key = counter st key.
Proof. reflexivity. Qed.

Lemma counter_log_streamed_call key' st key :
  counter (log_streamed_call key' st) key = counter st key.
Proof. reflexivity. Qed.

(** A routed call gives back what it took: every counter is as before. *)
Lemma route_counter name requestedVersion tag payload st key :
  counter (snd (route name requestedVersion tag payload st)) key =
  counter st key.
Proof.
  unfold route.
  destruct (select (registry st) name requestedVersion) as [e|resolved];
    [done|].
  destruct (dispatch tag) as [operation|]; simpl.
  - destruct (engine resolved.1 resolved.2 operation payload); simpl;
      rewrite counter_add_in_flight, ?counter_count_call,
        ?counter_log_engine_call, !counter_add_in_flight;
      repeat case_decide; subst; try done; lia.
  - rewrite !counter_add_in_flight. repeat case_decide; subst; try done; lia.
Qed.

(** The invariant of a session opened on [key] when the counter of [key]
    was [base]: the session holds exactly one reference while it is live and
    none once it is closed. *)
Definition holds_one_reference (key : string * Z) (base : Z)
    (c : StreamingSession * CoreState) : Prop :=
  if live (session_state c.1)
  then pinned c.1 = Some key ∧ counter c.2 key = (base + 1)%Z
  else counter c.2 key = base.

Lemma open_holds_one_reference name requestedVersion st session st' :
  open name requestedVersion st = (inr session, st') →
  ∃ key, pinned session = Some key ∧
         holds_one_reference key (counter st key) (session, st').
Proof.
  unfold open.
  destruct (select (registry st) name requestedVersion) as [e|key]; [done|].
  intros [= <- <-]. exists key. split; [done|].
  unfold holds_one_reference. simpl. split; [done|].
  rewrite counter_add_in_flight. by case_decide.
Qed.

Lemma step_holds_one_reference key base event c :
  holds_one_reference key base c → holds_one_reference key base (step event c).
Proof.
  destruct c as [session st]. unfold holds_one_reference.
  destruct event as [payload| |name requestedVersion tag payload]; simpl.
  - destruct (live (session_state session)) eqn:Hlive; simpl;
      [|by rewrite Hlive].
    intros [Hpinned Hcounter]. rewrite Hpinned.
    destruct (predictStreamed key.1 key.2 payload) as [responses [message|]];
      simpl; [|done].
    unfold release.
    rewrite Hpinned, counter_add_in_flight, counter_log_streamed_call.
    case_decide; [lia|done].
  - destruct (live (session_state session)) eqn:Hlive; simpl;
      [|by rewrite Hlive].
    intros [Hpinned Hcounter]. unfold release.
    rewrite Hpinned, counter_add_in_flight. case_decide; [lia|done].
  - rewrite route_counter. done.
Qed.

Lemma run_holds_one_reference key base events c :
  holds_one_reference key base c → holds_one_reference key base (run events c).
Proof.
  revert c. induction events as [|event events IH]; intros c Hc; [done|].
  apply IH. by apply step_holds_one_reference.
Qed.

(** A session taken from [open] is live. *)
Lemma open_is_live name requestedVersion st session st' :
  open name requestedVersion st = (inr session, st') →
  live (session_state session) = true.
Proof.
  unfold open.
  destruct (select (registry st) name requestedVersion) as [e|key]; [done|].
  by intros [= <- <-].
Qed.

(** What closing a live session does: the session is [Completed], its pin is
    dropped, the callback's record is kept, and the counter of the pinned
    servable, and no other, goes down by one. *)
Lemma close_live session st key :
  live (session_state session) = true →
  pinned session = Some key →
  close (session, st) =
    ({| session_state := Completed; pinned := None;
        delivered := delivered session |},
     add_in_flight key (-1) st) ∧
  counter (close (session, st)).2 key = (counter st key - 1)%Z ∧
  ∀ key', key' ≠ key → counter (close (session, st)).2 key' = counter st key'.
Proof.
  intros Hlive Hpinned. unfold close, release. rewrite Hlive, Hpinned. simpl.
  split_and!; [done|..].
  - rewrite counter_add_in_flight. case_decide; [lia|done].
  - intros key' Hkey'. rewrite counter_add_in_flight.
    case_decide; by subst.
Qed.

(** What a failed model call does to a live session: the session is
    [Failed], its pin is dropped, the terminal error reaches the callback
    after the responses of the chunk, and the counter of the pinned servable
    goes down by one. *)
Lemma sendChunk_failure session st key payload responses message :
  live (session_state session) = true →
  pinned session = Some key →
  predictStreamed key.1 key.2 payload = (responses, Some message) →
  sendChunk payload (session, st) =
    (inl (ModelCallFailed message),
     ({| session_state := Failed; pinned := None;
         delivered :=
           inl (ModelCallFailed message)
             :: reverse (inr <$> responses) ++ delivered session |},
      add_in_flight key (-1) (log_streamed_call key st))) ∧
  counter (sendChunk payload (session, st)).2.2 key = (counter st key - 1)%Z.
Proof.
  intros Hlive Hpinned Hfailed. unfold sendChunk, release.
  rewrite Hlive, Hpinned, Hfailed. simpl. split; [done|].
  rewrite counter_add_in_flight, counter_log_streamed_call.
  case_decide; [lia|done].
Qed.

(** A session that is closed stays closed. *)
Lemma step_stays_closed event c :
  live (session_state c.1) = false →
  live (session_state (step event c).1) = false.
Proof.
  destruct c as [session st]. simpl. intros Hclosed.
  destruct event as [payload| |name requestedVersion tag payload]; simpl.
  - by rewrite Hclosed.
  - by rewrite Hclosed.
  - done.
Qed.

Lemma run_stays_closed events c :
  live (session_state c.1) = false →
  live (session_state (run events c).1) = false.
Proof.
  revert c. induction events as [|event events IH]; intros c Hclosed; [done|].
  apply IH. by apply step_stays_closed.
Qed.

Lemma close_closes c : live (session_state (close c).1) = false.
Proof.
  destruct c as [session st]. unfold close.
  by destruct (live (session_state session)) eqn:Hlive; simpl.
Qed.

Lemma run_app events events' c :
  run (events ++ events') c = run events' (run events c).
Proof. unfold run. apply foldl_app. Qed.

(** C10: closing is idempotent and releases the in-flight reference exactly
    once.  Closing a live session makes it [Completed], drops its pin and
    takes exactly one off the counter of the pinned servable, leaving every
    other counter alone; closing a session that is [Completed] or [Failed]
    changes nothing; a failed model call makes the session [Failed] and takes
    exactly one off the counter, and a close after it changes nothing.  For a
    session taken from [open], through any sequence of chunks, closes and
    routed calls the counter is the value before [open] plus one while the
    session is live and that value afterwards, and once a close has happened
    the session is closed and the counter is back at the value before
    [open], however many closes, chunks or routed calls follow. *)
Theorem close_idempotent_and_releases_once :
  (∀ c, close (close c) = close c) ∧
  (∀ pinned_ delivered_ st,
     close ({| session_state := Completed; pinned := pinned_;
               delivered := delivered_ |}, st) =
       ({| session_state := Completed; pinned := pinned_;
           delivered := delivered_ |}, st) ∧
     close ({| session_state := Failed; pinned := pinned_;
               delivered := delivered_ |}, st) =
       ({| session_state := Failed; pinned := pinned_;
           delivered := delivered_ |}, st)) ∧
  (∀ payload c message,
     fst (sendChunk payload c) = inl (ModelCallFailed message) →
     session_state (snd (sendChunk payload c)).1 = Failed ∧
     close (snd (sendChunk payload c)) = snd (sendChunk payload c)) ∧
  (∀ name requestedVersion st events,
     match open name requestedVersion st with
     | (inl _, st') => st' = st
     | (inr session, st') =>
         ∃ key,
           pinned session = Some key ∧
           let c := run events (session, st') in
           counter c.2 key =
             (counter st key + if live (session_state c.1) then 1 else 0)%Z
     end) ∧
  (∀ state delivered_ st key,
     live state = true →
     let session :=
       {| session_state := state; pinned := Some key;
          delivered := delivered_ |} in
     close (session, st) =
       ({| session_state := Completed; pinned := None;
           delivered := delivered_ |},
        add_in_flight key (-1) st) ∧
     counter (close (session, st)).2 key = (counter st key - 1)%Z ∧
     (∀ key', key' ≠ key →
              counter (close (session, st)).2 key' = counter st key') ∧
     counter (close (close (session, st))).2 key = (counter st key - 1)%Z) ∧
  (∀ state delivered_ st key payload responses message,
     live state = true →
     predictStreamed key.1 key.2 payload = (responses, Some message) →
     let session :=
       {| session_state := state; pinned := Some key;
          delivered := delivered_ |} in
     let failed := (sendChunk payload (session, st)).2 in
     session_state failed.1 = Failed ∧
     pinned failed.1 = None ∧
     delivered failed.1 =
       inl (ModelCallFailed message)
         :: reverse (inr <$> responses) ++ delivered_ ∧
     counter failed.2 key = (counter st key - 1)%Z ∧
     counter (close failed).2 key = (counter st key - 1)%Z) ∧
  (∀ name requestedVersion st events events',
     match open name requestedVersion st with
     | (inl _, st') => st' = st
     | (inr session, st') =>
         ∃ key,
           pinned session = Some key ∧
           counter st' key = (counter st key + 1)%Z ∧
           let c := run (events ++ Close :: events') (session, st') in
           live (session_state c.1) = false ∧
           counter c.2 key = counter st key
     end).
Proof.
  assert (Hidempotent : ∀ c, close (close c) = close c).
  { intros [session st]. unfold close.
    destruct (live (session_state session)) eqn:Hlive; simpl; [done|].
    by rewrite Hlive. }
  assert (Hopen_fails : ∀ name requestedVersion st e st',
            open name requestedVersion st = (inl e, st') → st' = st).
  { intros name requestedVersion st e st' Hopen. unfold open in Hopen.
    destruct (select (registry st) name requestedVersion); by simplify_eq. }
  split_and!.
  - done.
  - done.
  - intros payload [session st] message. unfold sendChunk.
    destruct (live (session_state session)); [|done].
    destruct (pinned session) as [key|]; [|done].
    by destruct (predictStreamed key.1 key.2 payload)
      as [responses [message'|]].
  - intros name requestedVersion st events.
    destruct (open name requestedVersion st) as [[e|session] st'] eqn:Hopen;
      [by eapply Hopen_fails|].
    apply open_holds_one_reference in Hopen as (key & Hpinned & Hinv).
    exists key. split; [done|].
    apply (run_holds_one_reference _ _ events) in Hinv.
    unfold holds_one_reference in Hinv. simpl.
    destruct (live (session_state (run events (session, st')).1));
      [destruct Hinv as [_ ->]; lia|rewrite Hinv; lia].
  - intros state delivered_ st key Hlive session.
    destruct (close_live session st key Hlive eq_refl)
      as (Hclose & Hcounter & Hothers).
    split_and!; [done|done|done|]. by rewrite Hidempotent.
  - intros state delivered_ st key payload responses message Hlive Hfailed
      session failed.
    destruct (sendChunk_failure session st key payload responses message
                Hlive eq_refl Hfailed) as [Hsend Hcounter].
    subst failed. rewrite Hsend in *. simpl in *. by split_and!.
  - intros name requestedVersion st events events'.
    destruct (open name requestedVersion st) as [[e|session] st'] eqn:Hopen;
      [by eapply Hopen_fails|].
    pose proof Hopen as Hopen'.
    apply open_holds_one_reference in Hopen as (key & Hpinned & Hinv).
    exists key. split; [done|]. split.
    { unfold holds_one_reference in Hinv. simpl in Hinv.
      rewrite (open_is_live _ _ _ _ _ Hopen') in Hinv. by destruct Hinv. }
    simpl. rewrite run_app. simpl.
    set (c := run events (session, st')).
    apply (run_holds_one_reference _ _ events) in Hinv. fold c in Hinv.
    apply (step_holds_one_reference _ _ Close) in Hinv. simpl in Hinv.
    pose proof (close_closes c) as Hclosed.
    apply (run_holds_one_reference _ _ events') in Hinv.
    apply (run_stays_closed events') in Hclosed.
    unfold run in *. split; [done|].
    unfold holds_one_reference in Hinv. by rewrite Hclosed in Hinv.
Qed.

End Core.

(** ** A small concrete registry *)

Definition toy_registry : gmap string (gmap Z ServableState) :=
  {[ "m" := {[ 1%Z := kAvailable; 2%Z := kAvailable; 3%Z := kRetiring;
               4%Z := kLoading ]};
     "old" := {[ 1%Z := kUnloaded ]} ]}.

Definition toy_core : CoreState :=
  {| registry := toy_registry; in_flight := ∅; call_count := ∅;
     engine_calls := []; streamed_calls := [] |}.

Definition toy_engine (name : string) (version : Z) (operation : Operation)
    (payload : Z) : string + Z :=
  inr (payload + version)%Z.

(** A streamed predict that answers a non-negative chunk and fails on a
    negative one. *)
Definition toy_predictStreamed (name : string) (version : Z) (payload : Z) :
    list Z * option string :=
  if decide (0 ≤ payload)%Z then ([payload], None) else ([], Some "failed").

Example toy_select_latest :
  select toy_registry "m" None = inr ("m", 2%Z) ∧
  select toy_registry "m" (Some 1%Z) = inr ("m", 1%Z) ∧
  select toy_registry "m" (Some 3%Z) = inl VersionNotAvailable ∧
  select toy_registry "old" None = inl NoAvailableVersion ∧
  select toy_registry "absent" None = inl NoAvailableVersion.
Proof. split_and!; vm_compute; reflexivity. Qed.

Example toy_route :
  route toy_engine "m" None (KnownTag OpPredict) 40%Z toy_core =
    (inr 42%Z,
     {| registry := toy_registry;
        in_flight := {[ ("m", 2%Z) := 0%Z ]};
        call_count := {[ ("m", 2%Z) := 1 ]};
        engine_calls := [("m", 2%Z, OpPredict)];
        streamed_calls := [] |}) ∧
  route toy_engine "old" None (KnownTag OpPredict) 40%Z toy_core =
    (inl (ResolutionFailed NoAvailableVersion), toy_core).
Proof. split_and!; vm_compute; reflexivity. Qed.

(** A failed chunk followed by two closes: the counter is back at zero and
    the callback has received the terminal error once. *)
Example toy_session_fail_then_close :
  match open (Response := Z) "m" None toy_core with
  | (inr session, st) =>
      let c :=
        run toy_engine toy_predictStreamed
          [SendChunk 5%Z; SendChunk (-1)%Z; Close; Close] (session, st) in
      counter st ("m", 2%Z) = 1%Z ∧
      counter c.2 ("m", 2%Z) = 0%Z ∧
      session_state c.1 = Failed ∧
      delivered c.1 = [inl (ModelCallFailed "failed"); inr 5%Z]
  | (inl _, _) => False
  end.
Proof. vm_compute. by split_and!. Qed.

End RoutingCore.
